(** * SENSES (HSSTT) scoring: a shallow embedding of [senses.py]

    The module scores an AI response from five rating signals.  Its two
    functions are embedded here:

    - [remove_outliers] (senses.py, lines 54-84), the z-score filter;
    - [compute_senses] (senses.py, lines 87-199), validation, the five
      scores, their mean and the rounded summary.

    Modelling choices.

    - A Python [float] is a real number ([R]): NaN, infinities and the
      rounding of IEEE-754 arithmetic are outside the model, which is the
      reading the specification itself takes ("sequence of real numbers").
    - A list element is a Python number: [float], [int] or [bool].
      [np.array(xs, dtype=float)] converts each of them ([to_float]).
    - The bundle is a [dict] with string keys ([gmap string (list pyval)]);
      an argument that is not a [dict] is one of the other [pyobj] cases.
    - Exceptions are values of [pyexn]; a computation is a [result].
    - [json.dumps] is library code and is not modelled: the summary is the
      dictionary [senses_metadata] handed to it, as the record [Senses].
    - Logging has no effect on the result and is left out. *)

From Stdlib Require Import Reals Lra Lia ZArith.
From stdpp Require Import gmap strings list.

Local Open Scope R_scope.

(** ** Python values and exceptions *)

Inductive pyval : Type :=
| PyFloat (x : R)
| PyInt (n : Z)
| PyBool (b : bool).

Inductive pyobj : Type :=
| PyDict (d : gmap string (list pyval))
| PyList (l : list pyval)
| PyScalar (v : pyval)
| PyNone.

Inductive pyexn : Type :=
| ValueError (msg : string)
| TypeError (msg : string)
| KeyError (key : string)
| RuntimeError (msg : string) (cause : pyexn).

Inductive result (A : Type) : Type :=
| Ok (a : A)
| Raise (e : pyexn).

Arguments Ok {A} a.
Arguments Raise {A} e.

Definition bind {A B : Type} (m : result A) (k : A -> result B) : result B :=
  match m with
  | Ok a => k a
  | Raise e => Raise e
  end.

Notation "'let!' x ':=' m 'in' k" := (bind m (fun x => k))
  (at level 10, x name, m at level 100, k at level 200).

(** [str(e)] for the exceptions of the model. *)
Definition exn_str (e : pyexn) : string :=
  match e with
  | ValueError msg => msg
  | TypeError msg => msg
  | KeyError key => "'" +:+ key +:+ "'"
  | RuntimeError msg _ => msg
  end.

(** [isinstance(x, bool)] *)
Definition is_bool (v : pyval) : bool :=
  match v with
  | PyBool _ => true
  | _ => false
  end.

(** Conversion of a Python number to [float]. *)
Definition to_float (v : pyval) : R :=
  match v with
  | PyFloat x => x
  | PyInt n => IZR n
  | PyBool b => if b then 1 else 0
  end.

#[global] Instance Rle_decision (x y : R) : Decision (x <= y) := Rle_dec x y.
#[global] Instance Rlt_decision (x y : R) : Decision (x < y) := Rlt_dec x y.
#[global] Instance Req_decision : EqDecision R := Req_dec_T.

(** ** The NumPy operations the module calls *)

Module Np.

(** [np.array(xs, dtype=float)] *)
Definition array (xs : list pyval) : list R := to_float <$> xs.

Definition sum (a : list R) : R := foldr Rplus 0 a.

(** [np.mean]: the sum over the number of elements. *)
Definition mean (a : list R) : R := sum a / INR (length a).

(** [np.std] with its default [ddof=0]: the square root of the mean of
    the squared deviations from the mean. *)
Definition std (a : list R) : R :=
  sqrt (mean ((fun x => (x - mean a) * (x - mean a)) <$> a)).

Definition abs (a : list R) : list R := Rabs <$> a.

(** [np.max] of an array with first element [x] and rest [xs]. *)
Definition max (x : R) (xs : list R) : R := foldl Rmax x xs.

(** [np.any(a > 0)] *)
Definition any_pos (a : list R) : bool := bool_decide (Exists (fun v => 0 < v) a).

End Np.

(** ** [round(x, ndigits)]: round half to even *)

Definition round_half_even (y : R) : Z :=
  let f := Zfloor y in
  if decide (y - IZR f < 1 / 2) then f
  else if decide (1 / 2 < y - IZR f) then (f + 1)%Z
  else if Z.even f then f else (f + 1)%Z.

Definition py_round (x : R) (ndigits : nat) : R :=
  IZR (round_half_even (x * 10 ^ ndigits)) / 10 ^ ndigits.

(** ** [remove_outliers] *)

(** One entry of the array [z_scores]. *)
Definition z_score (mean std v : R) : R := Rabs ((v - mean) / (std + 1e-9)).

Definition remove_outliers (data_list : list R) (threshold : R) : list R :=
  if decide (length data_list < 2)%nat then data_list
  else
    let mean := Np.mean data_list in
    let std := Np.std data_list in
    if decide (std = 0) then data_list
    else filter (fun v => z_score mean std v <= threshold) data_list.

(** ** [compute_senses] *)

Record Senses : Type := mkSenses {
  hear : R;
  see : R;
  smell : R;
  touch : R;
  taste : R
}.

Definition required_keys : list string :=
  [ "coherence_ratings"; "structural_feedback"; "novelty_indicators";
    "application_successes"; "likability_scores" ]%string.

(** [", ".join(keys)] *)
Fixpoint join (sep : string) (keys : list string) : string :=
  match keys with
  | [] => ""
  | [k] => k
  | k :: ks => k +:+ sep +:+ join sep ks
  end.

(** [d[key]] *)
Definition getitem (d : gmap string (list pyval)) (key : string)
  : result (list pyval) :=
  match d !! key with
  | Some v => Ok v
  | None => Raise (KeyError key)
  end.

(** The body of the [try] block computes the five scores one after the
    other (senses.py, lines 125-171); each block is a function here, of the
    sequence it reads from the bundle. *)

(** Hear (lines 125-132). *)
Definition hear_score (coherence_ratings : list pyval) (z_threshold : R) : R :=
  let coherence_arr := Np.array coherence_ratings in
  let coherence_filtered := filter (fun v => 0 <= v /\ v <= 1) coherence_arr in
  let coherence_clean := remove_outliers coherence_filtered z_threshold in
  if decide (length coherence_clean = 0%nat) then 0
  else Np.mean coherence_clean.

(** See (lines 134-140). *)
Definition see_score (structural_feedback : list pyval) (z_threshold : R) : R :=
  let structural_arr := Np.array structural_feedback in
  let structural_filtered := filter (fun v => 0 <= v /\ v <= 1) structural_arr in
  let structural_clean := remove_outliers structural_filtered z_threshold in
  if decide (length structural_clean = 0%nat) then 0
  else Np.mean structural_clean.

(** Smell (lines 142-151). *)
Definition smell_score (novelty_indicators : list pyval) (z_threshold : R) : R :=
  let novelty := Np.array novelty_indicators in
  let novelty_clean := remove_outliers novelty z_threshold in
  let novelty_abs := Np.abs novelty_clean in
  let max_abs :=
    match novelty_abs with
    | x :: xs => if Np.any_pos novelty_abs then Np.max x xs else 1
    | [] => 1
    end in
  if decide (length novelty_abs = 0%nat) then 0
  else Np.mean novelty_abs / max_abs.

(** Touch (line 161), after the boolean check of line 157. *)
Definition touch_score (successes : list pyval) : R :=
  match successes with
  | [] => 0
  | _ :: _ => Np.sum (to_float <$> successes) / INR (length successes)
  end.

(** Taste (lines 163-171). *)
Definition taste_score (likability_scores : list pyval) (z_threshold : R) : R :=
  let likability_arr := Np.array likability_scores in
  let likability_filtered := filter (fun v => 1 <= v /\ v <= 5) likability_arr in
  let likability_clean := remove_outliers likability_filtered z_threshold in
  if decide (length likability_clean = 0%nat) then 0
  else (Np.mean likability_clean - 1) / 4.

(** The body of the [try] block, up to the five scores (lines 110-171):
    the two validation steps, the key lookups and the scores, in the order
    of the source. *)
Definition senses_scores (ratings_data : pyobj) (z_threshold : R)
  : result Senses :=
  match ratings_data with
  | PyDict d =>
      let missing_keys := filter (fun key => d !! key = None) required_keys in
      if decide (missing_keys = []) then
        let! coherence_ratings := getitem d "coherence_ratings" in
        let hear := hear_score coherence_ratings z_threshold in
        let! structural_feedback := getitem d "structural_feedback" in
        let see := see_score structural_feedback z_threshold in
        let! novelty_indicators := getitem d "novelty_indicators" in
        let smell := smell_score novelty_indicators z_threshold in
        let! successes := getitem d "application_successes" in
        if forallb is_bool successes then
          let touch := touch_score successes in
          let! likability_scores := getitem d "likability_scores" in
          let taste := taste_score likability_scores z_threshold in
          Ok (mkSenses hear see smell touch taste)
        else Raise (ValueError "application_successes must contain booleans")
      else
        Raise (ValueError ("Missing required keys: " +:+ join ", " missing_keys))
  | _ => Raise (ValueError "ratings_data must be a dictionary")
  end.

(** [float(np.mean(hsstt_values))] *)
Definition composite_of (s : Senses) : R :=
  Np.mean [hear s; see s; smell s; touch s; taste s].

(** The dictionary [senses_metadata]: each score rounded to 2 decimals. *)
Definition senses_metadata (s : Senses) : Senses :=
  mkSenses (py_round (hear s) 2) (py_round (see s) 2) (py_round (smell s) 2)
           (py_round (touch s) 2) (py_round (taste s) 2).

(** The two [except] clauses: both re-raise as [RuntimeError ... from e]. *)
Definition reraise (e : pyexn) : pyexn :=
  match e with
  | ValueError _ | TypeError _ =>
      RuntimeError ("Error processing ratings_data: " +:+ exn_str e) e
  | _ => RuntimeError ("Unexpected error: " +:+ exn_str e) e
  end.

Definition compute_senses (ratings_data : pyobj) (z_threshold : R)
  : result (Senses * R) :=
  match senses_scores ratings_data z_threshold with
  | Ok s => Ok (senses_metadata s, composite_of s)
  | Raise e => Raise (reraise e)
  end.

(** ** Definitions used to state the properties *)

(** The specification's reading of the statistics: population mean and
    population standard deviation, dividing by [N]. *)
Module Spec.



End Spec.

(** The dictionary literal with the five required keys. *)
Definition bundle (coherence structural novelty successes likability : list pyval)
  : gmap string (list pyval) :=
  <["coherence_ratings" := coherence]>
    (<["structural_feedback" := structural]>
      (<["novelty_indicators" := novelty]>
        (<["application_successes" := successes]>
          (<["likability_scores" := likability]> ∅)))).


(** The keys the validation reports. *)
Definition missing_keys (d : gmap string (list pyval)) : list string :=
  filter (fun key => d !! key = None) required_keys.

(** [msg] contains [key]. *)
Definition names (msg key : string) : Prop :=
  exists before after, msg = before +:+ key +:+ after.

(** The three ways in which the argument is rejected. *)
Inductive invalid_bundle : pyobj -> Prop :=
| not_a_mapping o :
    (forall d, o <> PyDict d) -> invalid_bundle o
| keys_missing d key :
    key ∈ required_keys -> d !! key = None -> invalid_bundle (PyDict d)
| non_boolean_success d successes x :
    d !! "application_successes" = Some successes ->
    x ∈ successes -> is_bool x = false -> invalid_bundle (PyDict d).


(** The default value of [threshold] and of [z_threshold]. *)
Definition default_threshold : R := 3.0.

(** Scenario 1 of the specification, [sample_data] in the unit tests. *)
Definition sample_data : gmap string (list pyval) :=
  bundle [PyFloat 0.8; PyFloat 0.9; PyFloat 0.7]
         [PyFloat 0.85; PyFloat 0.75; PyFloat 0.9]
         [PyFloat 1.2; PyFloat 0.5; PyFloat (-0.3)]
         [PyBool true; PyBool true; PyBool false]
         [PyFloat 4.5; PyFloat 5.0; PyFloat 3.8].

(** The bundle whose five sequences are empty. *)
Definition empty_data : gmap string (list pyval) := bundle [] [] [] [] [].

(** * Properties *)

(** ** Sums, means and deviations *)

Section Statistics.

Implicit Types (a l : list R) (x v c : R).


Lemma div_upper x v c : 0 < v -> x <= c * v -> x / v <= c.
Proof.
  intros Hv Hc. apply (Rmult_le_reg_r v); [done|].
  replace (x / v * v) with x by (field; lra). done.
Qed.


Lemma sum_app a l : Np.sum (a ++ l) = Np.sum a + Np.sum l.
Proof.
  unfold Np.sum. induction a as [|x a IH]; simpl; [lra | rewrite IH; lra].
Qed.

Lemma sum_cons x l : Np.sum (x :: l) = x + Np.sum l.
Proof. reflexivity. Qed.

Lemma sum_shift l c :
  Np.sum ((fun x => x - c) <$> l) = Np.sum l - INR (length l) * c.
Proof.
  unfold Np.sum. induction l as [|x l IH].
  - cbn. lra.
  - rewrite fmap_cons. change (length (x :: l)) with (S (length l)).
    rewrite S_INR. cbn [foldr]. rewrite IH. lra.
Qed.

Lemma length_pos_INR l : l <> [] -> 0 < INR (length l).
Proof.
  intros Hl. destruct l as [|x l]; [done|].
  change (length (x :: l)) with (S (length l)). rewrite S_INR.
  pose proof (pos_INR (length l)). lra.
Qed.

(** The deviations from the mean sum to zero. *)
Lemma sum_deviations l :
  l <> [] -> Np.sum ((fun x => x - Np.mean l) <$> l) = 0.
Proof.
  intros Hl. rewrite sum_shift. unfold Np.mean.
  pose proof (length_pos_INR l Hl). field. lra.
Qed.

Lemma sum_squares_nonneg l c :
  0 <= Np.sum ((fun x => (x - c) * (x - c)) <$> l).
Proof.
  unfold Np.sum. induction l as [|x l IH]; [cbn; lra|].
  rewrite fmap_cons. cbn [foldr]. cbv beta.
  apply Rplus_le_le_0_compat; [apply Rle_0_sqr | exact IH].
Qed.

Lemma variance_nonneg l :
  0 <= Np.mean ((fun x => (x - Np.mean l) * (x - Np.mean l)) <$> l).
Proof.
  unfold Np.mean at 1. rewrite length_fmap.
  pose proof (sum_squares_nonneg l (Np.mean l)) as Hs.
  destruct l as [|x l].
  - cbn. lra.
  - apply Rmult_le_pos; [exact Hs|].
    left. apply Rinv_0_lt_compat, length_pos_INR. done.
Qed.

Lemma std_nonneg l : 0 <= Np.std l.
Proof. apply sqrt_pos. Qed.

Lemma std_square l :
  Np.std l * Np.std l =
  Np.mean ((fun x => (x - Np.mean l) * (x - Np.mean l)) <$> l).
Proof. apply sqrt_sqrt, variance_nonneg. Qed.

(** The square of a sum is at most the length times the sum of squares. *)
Lemma sum_square_le l c :
  Np.sum ((fun x => x - c) <$> l) * Np.sum ((fun x => x - c) <$> l)
  <= INR (length l) * Np.sum ((fun x => (x - c) * (x - c)) <$> l).
Proof.
  induction l as [|x l IH].
  - cbn. lra.
  - change (length (x :: l)) with (S (length l)). rewrite S_INR.
    pose proof (pos_INR (length l)) as Hm.
    pose proof (sum_squares_nonneg l c) as Hq.
    rewrite !fmap_cons. unfold Np.sum in *. cbn [foldr].
    set (s := foldr Rplus 0 ((fun x => x - c) <$> l)) in *.
    set (q := foldr Rplus 0 ((fun x => (x - c) * (x - c)) <$> l)) in *.
    set (m := INR (length l)) in *. set (a := x - c).
    assert (Hk : 0 <= m * a * a + q - 2 * a * s).
    { destruct (Req_dec m 0) as [Hz | Hnz].
      - rewrite Hz in *. assert (s = 0) by nra. subst s. nra.
      - assert (0 < m) by lra.
        pose proof (Rle_0_sqr (m * a - s)) as Hsq. unfold Rsqr in Hsq.
        assert (0 <= m * (m * a * a + q - 2 * a * s)) by nra.
        nra. }
    nra.
Qed.

(** Samuelson's inequality: with [n] samples, a squared deviation from the
    mean is at most [n - 1] times the population variance. *)
Lemma deviation_bound l v :
  v ∈ l ->
  (v - Np.mean l) * (v - Np.mean l)
  <= (INR (length l) - 1) * (Np.std l * Np.std l).
Proof.
  intros Hin. rewrite std_square.
  apply list_elem_of_split in Hin as (l1 & l2 & Hl).
  assert (Hne : l <> []) by (rewrite Hl; by destruct l1).
  pose proof (sum_deviations l Hne) as Hdev.
  pose proof (length_pos_INR l Hne) as Hn.
  unfold Np.mean at 3. rewrite length_fmap.
  set (c := Np.mean l) in *.
  pose proof (sum_square_le (l1 ++ l2) c) as Hcs.
  pose proof (sum_squares_nonneg (l1 ++ l2) c) as Hq.
  assert (Hlen : INR (length l) = INR (length (l1 ++ l2)) + 1).
  { rewrite Hl, !length_app. cbn [length].
    rewrite Nat.add_succ_r, S_INR. done. }
  rewrite Hl in Hdev |- * at 2.
  rewrite !fmap_app, !sum_app in *.
  rewrite !fmap_cons, !sum_cons in *.
  set (s1 := Np.sum ((fun x => x - c) <$> l1)) in *.
  set (s2 := Np.sum ((fun x => x - c) <$> l2)) in *.
  set (q1 := Np.sum ((fun x => (x - c) * (x - c)) <$> l1)) in *.
  set (q2 := Np.sum ((fun x => (x - c) * (x - c)) <$> l2)) in *.
  set (d := v - c) in *. set (n := INR (length l)) in *.
  set (m := INR (length (l1 ++ l2))) in *.
  assert (Hd : d = - (s1 + s2)) by lra.
  assert (Hdd : d * d <= m * (q1 + q2)) by (rewrite Hd; nra).
  assert (Hm : 0 <= m) by apply pos_INR.
  apply (Rmult_le_reg_l n); [exact Hn|].
  replace (n * ((n - 1) * ((q1 + (d * d + q2)) / n)))
    with ((n - 1) * (q1 + (d * d + q2))) by (field; lra).
  rewrite Hlen. nra.
Qed.

End Statistics.

(** ** The z-score filter *)

Section OutlierFilter.

Implicit Types (l : list R) (v t : R).



Lemma eps_pos : 0 < 1e-9.
Proof. lra. Qed.

(** The absolute value of the quotient is the quotient of the absolute
    deviation by [std + 1e-9]. *)
Lemma z_score_quot mean std v :
  0 <= std -> z_score mean std v = Rabs (v - mean) / (std + 1e-9).
Proof.
  intros Hs. unfold z_score, Rdiv.
  rewrite Rabs_mult, (Rabs_pos_eq (/ _)); [done|].
  left. apply Rinv_0_lt_compat. pose proof eps_pos. lra.
Qed.

(** A deviation bounded by [k * std] has a z-score of at most [k]. *)
Lemma z_score_le mean std v k :
  0 <= std -> 0 <= k ->
  (v - mean) * (v - mean) <= k * k * (std * std) ->
  z_score mean std v <= k.
Proof.
  intros Hs Hk Hd. rewrite z_score_quot by done.
  pose proof eps_pos as He.
  apply div_upper; [lra|].
  assert (Rabs (v - mean) <= k * std); [|nra].
  assert (0 <= k * std) by nra.
  unfold Rabs. destruct (Rcase_abs _); nra.
Qed.

(** With [n] samples no z-score exceeds [sqrt (n - 1)]. *)
Lemma z_score_bound l v :
  v ∈ l -> z_score (Np.mean l) (Np.std l) v <= sqrt (INR (length l) - 1).
Proof.
  intros Hin.
  assert (Hn : 0 <= INR (length l) - 1).
  { destruct l as [|x l']; [by apply not_elem_of_nil in Hin|].
    change (length (x :: l')) with (S (length l')). rewrite S_INR.
    pose proof (pos_INR (length l')). lra. }
  apply z_score_le; [apply std_nonneg | apply sqrt_pos |].
  rewrite sqrt_sqrt by done. by apply deviation_bound.
Qed.

Lemma filter_all (P : R -> Prop) `{!forall v, Decision (P v)} l :
  (forall v, v ∈ l -> P v) -> filter P l = l.
Proof.
  intros Hall. induction l as [|x l' IH]; [done|].
  rewrite filter_cons_True by (apply Hall; left).
  f_equal. apply IH. intros v Hv. apply Hall. by right.
Qed.

Lemma remove_outliers_keeps_all l t :
  (forall v, v ∈ l -> z_score (Np.mean l) (Np.std l) v <= t) ->
  remove_outliers l t = l.
Proof.
  intros Hall. unfold remove_outliers.
  repeat case_decide; try done. by apply filter_all.
Qed.

(** Lists of at most ten samples pass the default threshold unchanged. *)
Lemma remove_outliers_small l :
  (length l <= 10)%nat -> remove_outliers l 3 = l.
Proof.
  intros Hlen. apply remove_outliers_keeps_all. intros v Hv.
  etrans; [by apply z_score_bound|].
  apply le_INR in Hlen. rewrite (INR_IZR_INZ 10) in Hlen.
  change (Z.of_nat 10) with 10%Z in Hlen.
  apply Rle_trans with (sqrt (3 * 3)).
  - apply sqrt_le_1_alt. lra.
  - rewrite sqrt_square; lra.
Qed.


















End OutlierFilter.

(** ** Ranges of the five scores *)

Section Ranges.

Implicit Types (l : list R) (xs : list pyval) (t : R).












End Ranges.

(** ** Rounding to two decimals *)

Section Rounding.

Implicit Types (x y : R) (k : Z).

Lemma round_half_even_near y k :
  IZR k - 1 / 2 < y < IZR k + 1 / 2 -> round_half_even y = k.
Proof.
  intros [Hlo Hhi]. unfold round_half_even.
  destruct (Rlt_le_dec y (IZR k)) as [Hlt | Hge].
  - assert (Hf : Zfloor y = (k - 1)%Z).
    { apply Zfloor_eq. rewrite minus_IZR. lra. }
    rewrite Hf, minus_IZR. repeat case_decide; try lra; lia.
  - assert (Hf : Zfloor y = k) by (apply Zfloor_eq; lra).
    rewrite Hf. repeat case_decide; try lra; lia.
Qed.

Lemma py_round_near x k :
  IZR k - 1 / 2 < x * 100 < IZR k + 1 / 2 -> py_round x 2 = IZR k / 100.
Proof.
  intros Hk. unfold py_round.
  replace (10 ^ 2) with 100 by (simpl; lra).
  by rewrite (round_half_even_near _ k).
Qed.



End Rounding.

(** ** The bundle and its validation *)

(** Membership of a literal key in [required_keys]. *)
Ltac required_key :=
  unfold required_keys;
  repeat first [ apply list_elem_of_here | apply list_elem_of_further ].

Section Bundle.

Implicit Types (d : gmap string (list pyval)) (t : R).

Lemma bundle_lookup c s n a k :
  let d := bundle c s n a k in
  d !! "coherence_ratings" = Some c /\
  d !! "structural_feedback" = Some s /\
  d !! "novelty_indicators" = Some n /\
  d !! "application_successes" = Some a /\
  d !! "likability_scores" = Some k.
Proof. unfold bundle. repeat split; by simplify_map_eq. Qed.

Lemma missing_keys_nil d :
  missing_keys d = [] <-> forall key, key ∈ required_keys -> is_Some (d !! key).
Proof.
  unfold missing_keys. split.
  - intros Hnil key Hkey. destruct (d !! key) eqn:Hd; [done|].
    assert (Hin : key ∈ filter (fun key => d !! key = None) required_keys)
      by by apply list_elem_of_filter.
    rewrite Hnil in Hin. by apply not_elem_of_nil in Hin.
  - intros Hall. destruct (filter _ _) as [|key ks] eqn:Hf; [done|].
    assert (Hin : key ∈ filter (fun key => d !! key = None) required_keys)
      by (rewrite Hf; left).
    apply list_elem_of_filter in Hin as [Hnone Hkey].
    apply Hall in Hkey as [? Hsome]. congruence.
Qed.

(** On a bundle with the five keys the body reaches the boolean check. *)
Lemma senses_scores_present d t c s n a k :
  d !! "coherence_ratings" = Some c ->
  d !! "structural_feedback" = Some s ->
  d !! "novelty_indicators" = Some n ->
  d !! "application_successes" = Some a ->
  d !! "likability_scores" = Some k ->
  senses_scores (PyDict d) t =
    if forallb is_bool a then
      Ok (mkSenses (hear_score c t) (see_score s t) (smell_score n t)
                   (touch_score a) (taste_score k t))
    else Raise (ValueError "application_successes must contain booleans").
Proof.
  intros Hc Hs Hn Ha Hk. unfold senses_scores.
  fold (missing_keys d). rewrite decide_True; last first.
  { apply missing_keys_nil. intros key Hkey. unfold required_keys in Hkey.
    repeat (apply elem_of_cons in Hkey as [-> | Hkey]; [by eexists|]).
    by apply not_elem_of_nil in Hkey. }
  unfold getitem. rewrite Hc, Hs, Hn, Ha, Hk. cbn [bind].
  by destruct (forallb is_bool a).
Qed.



Lemma append_nil_r (s : string) : s +:+ "" = s.
Proof.
  induction s as [|ch s IH]; [done|].
  change (String ch s +:+ "") with (String ch (s +:+ "")). by rewrite IH.
Qed.

Lemma append_assoc (s1 s2 s3 : string) :
  (s1 +:+ s2) +:+ s3 = s1 +:+ s2 +:+ s3.
Proof.
  induction s1 as [|ch s1 IH]; [done|].
  change (String ch ((s1 +:+ s2) +:+ s3) = String ch (s1 +:+ s2 +:+ s3)).
  by rewrite IH.
Qed.

Lemma names_prefix (before msg key : string) :
  names msg key -> names (before +:+ msg) key.
Proof.
  intros (b & a & ->). exists (before +:+ b), a. by rewrite append_assoc.
Qed.

(** The joined message contains every key of the list. *)
Lemma join_names (sep : string) (keys : list string) (key : string) :
  key ∈ keys -> names (join sep keys) key.
Proof.
  induction keys as [|k ks IH]; intros Hkey.
  - by apply not_elem_of_nil in Hkey.
  - apply elem_of_cons in Hkey as [-> | Hkey].
    + destruct ks as [|k' ks'].
      * exists "", "". cbn [join]. by rewrite append_nil_r.
      * by exists "", (sep +:+ join sep (k' :: ks')).
    + destruct ks as [|k' ks']; [by apply not_elem_of_nil in Hkey|].
      change (join sep (k :: k' :: ks'))
        with (k +:+ sep +:+ join sep (k' :: ks')).
      rewrite <- append_assoc. by apply names_prefix, IH.
Qed.

Lemma missing_keys_elem d key :
  key ∈ missing_keys d <-> key ∈ required_keys /\ d !! key = None.
Proof. unfold missing_keys. rewrite list_elem_of_filter. tauto. Qed.

(** With a key missing, the body stops at the key check, whatever the
    sequences under the other keys hold. *)
Lemma senses_scores_missing d t :
  missing_keys d <> [] ->
  senses_scores (PyDict d) t
  = Raise (ValueError ("Missing required keys: " +:+ join ", " (missing_keys d))).
Proof.
  intros Hm. unfold senses_scores. fold (missing_keys d).
  by rewrite decide_False.
Qed.








End Bundle.

(** ** Concrete scenarios *)

Ltac eval_filter :=
  repeat first [ rewrite filter_cons_True by lra
               | rewrite filter_cons_False by lra ];
  rewrite ?filter_nil.

Section Scenarios.

Lemma default_threshold_3 : default_threshold = 3.
Proof. unfold default_threshold. lra. Qed.

Lemma sample_hear :
  hear_score [PyFloat 0.8; PyFloat 0.9; PyFloat 0.7] default_threshold = 0.8.
Proof.
  unfold hear_score. cbn [Np.array fmap list_fmap to_float].
  eval_filter. rewrite default_threshold_3, remove_outliers_small by (simpl; lia).
  rewrite decide_False by done. unfold Np.mean, Np.sum. simpl. lra.
Qed.

Lemma sample_see :
  see_score [PyFloat 0.85; PyFloat 0.75; PyFloat 0.9] default_threshold
  = 2.5 / 3.
Proof.
  unfold see_score. cbn [Np.array fmap list_fmap to_float].
  eval_filter. rewrite default_threshold_3, remove_outliers_small by (simpl; lia).
  rewrite decide_False by done. unfold Np.mean, Np.sum. simpl. lra.
Qed.

Lemma max_cons x y l : Np.max x (y :: l) = Np.max (Rmax x y) l.
Proof. reflexivity. Qed.

Lemma sample_smell :
  smell_score [PyFloat 1.2; PyFloat 0.5; PyFloat (-0.3)] default_threshold
  = 5 / 9.
Proof.
  unfold smell_score. cbn [Np.array fmap list_fmap to_float].
  rewrite default_threshold_3, remove_outliers_small by (simpl; lia).
  unfold Np.abs. cbn [fmap list_fmap].
  rewrite (Rabs_pos_eq 1.2), (Rabs_pos_eq 0.5) by lra.
  rewrite (Rabs_left (-0.3)) by lra.
  rewrite decide_False by done.
  unfold Np.any_pos. rewrite bool_decide_eq_true_2 by (left; lra).
  rewrite !max_cons, (Rmax_left 1.2 0.5), (Rmax_left 1.2 (- -0.3)) by lra.
  unfold Np.max, Np.mean, Np.sum. simpl. lra.
Qed.

Lemma sample_touch :
  touch_score [PyBool true; PyBool true; PyBool false] = 2 / 3.
Proof. unfold touch_score, Np.sum. simpl. lra. Qed.

Lemma sample_taste :
  taste_score [PyFloat 4.5; PyFloat 5.0; PyFloat 3.8] default_threshold
  = (13.3 / 3 - 1) / 4.
Proof.
  unfold taste_score. cbn [Np.array fmap list_fmap to_float].
  eval_filter. rewrite default_threshold_3, remove_outliers_small by (simpl; lia).
  rewrite decide_False by done. unfold Np.mean, Np.sum. simpl. lra.
Qed.

Lemma sample_scores :
  senses_scores (PyDict sample_data) default_threshold
  = Ok (mkSenses 0.8 (2.5 / 3) (5 / 9) (2 / 3) ((13.3 / 3 - 1) / 4)).
Proof.
  unfold sample_data.
  destruct (bundle_lookup
    [PyFloat 0.8; PyFloat 0.9; PyFloat 0.7]
    [PyFloat 0.85; PyFloat 0.75; PyFloat 0.9]
    [PyFloat 1.2; PyFloat 0.5; PyFloat (-0.3)]
    [PyBool true; PyBool true; PyBool false]
    [PyFloat 4.5; PyFloat 5.0; PyFloat 3.8]) as (Hc & Hs & Hn & Ha & Hk).
  rewrite (senses_scores_present _ _ _ _ _ _ _ Hc Hs Hn Ha Hk).
  cbn [forallb is_bool andb].
  by rewrite sample_hear, sample_see, sample_smell, sample_touch, sample_taste.
Qed.

(** C3: on the sample bundle with the default threshold, the summary is
    [{hear: 0.8, see: 0.83, smell: 0.56, touch: 0.67, taste: 0.86}] and the
    composite is 0.743 to three decimal places. *)
Theorem compute_senses_sample :
  exists composite,
    compute_senses (PyDict sample_data) default_threshold
    = Ok (mkSenses 0.8 0.83 0.56 0.67 0.86, composite)
    /\ Rabs (composite - 0.743) < 0.0005.
Proof.
  eexists. unfold compute_senses. rewrite sample_scores. split.
  - f_equal. f_equal. unfold senses_metadata. cbn [hear see smell touch taste].
    rewrite (py_round_near 0.8 80), (py_round_near (2.5 / 3) 83),
      (py_round_near (5 / 9) 56), (py_round_near (2 / 3) 67),
      (py_round_near ((13.3 / 3 - 1) / 4) 86) by lra.
    f_equal; lra.
  - unfold composite_of, Np.mean, Np.sum. cbn [hear see smell touch taste].
    simpl. apply Rabs_def1; lra.
Qed.

(** C5: for the bundle whose five sequences are empty, [compute_senses]
    succeeds, with all five scores and the composite equal to 0. *)
Theorem compute_senses_empty t :
  senses_scores (PyDict empty_data) t = Ok (mkSenses 0 0 0 0 0)
  /\ compute_senses (PyDict empty_data) t = Ok (mkSenses 0 0 0 0 0, 0).
Proof.
  assert (Hsc : senses_scores (PyDict empty_data) t = Ok (mkSenses 0 0 0 0 0)).
  { unfold empty_data.
    destruct (bundle_lookup [] [] [] [] []) as (Hc & Hs & Hn & Ha & Hk).
    by rewrite (senses_scores_present _ _ _ _ _ _ _ Hc Hs Hn Ha Hk). }
  split; [exact Hsc|].
  unfold compute_senses. rewrite Hsc. f_equal. f_equal.
  - unfold senses_metadata. cbn [hear see smell touch taste].
    rewrite (py_round_near 0 0) by lra. f_equal; lra.
  - unfold composite_of, Np.mean, Np.sum. simpl. lra.
Qed.








(** C8: [compute_senses] fails, with one [RuntimeError] wrapping the
    original [ValueError] and no result, whenever the argument is not a
    dictionary, a required key is missing, or [application_successes] holds
    a non-boolean element.  When keys are missing the error is the
    missing-key one whatever the sequences hold, and its message names
    every missing key. *)
Theorem compute_senses_invalid o t :
  invalid_bundle o ->
  exists m,
    compute_senses o t
    = Raise (RuntimeError ("Error processing ratings_data: " +:+ m) (ValueError m))
    /\ (forall d key, o = PyDict d -> key ∈ required_keys -> d !! key = None ->
          m = "Missing required keys: " +:+ join ", " (missing_keys d)
          /\ names m key).
Proof.
  assert (Hmissing : forall d, missing_keys d <> [] ->
    exists m,
      compute_senses (PyDict d) t
      = Raise (RuntimeError ("Error processing ratings_data: " +:+ m) (ValueError m))
      /\ (forall d' key, PyDict d = PyDict d' -> key ∈ required_keys ->
            d' !! key = None ->
            m = "Missing required keys: " +:+ join ", " (missing_keys d')
            /\ names m key)).
  { intros d Hm. eexists. split.
    - unfold compute_senses. by rewrite senses_scores_missing.
    - intros d' key [= <-] Hkey Hnone. split; [done|].
      by apply names_prefix, join_names, missing_keys_elem. }
  intros [o' Hnot | d key Hkey Hnone | d successes x Ha Hx Hnb].
  - exists "ratings_data must be a dictionary". split.
    + destruct o' as [d| | |]; [by destruct (Hnot d) | done..].
    + intros d key ->. by destruct (Hnot d).
  - apply Hmissing. intros Hnil.
    assert (Hin : key ∈ missing_keys d) by by apply missing_keys_elem.
    rewrite Hnil in Hin. by apply not_elem_of_nil in Hin.
  - destruct (decide (missing_keys d = [])) as [Hnil | Hm]; [|by apply Hmissing].
    exists "application_successes must contain booleans". split.
    + pose proof (proj1 (missing_keys_nil d) Hnil) as Hall.
      destruct (Hall "coherence_ratings") as [c Hc]; [required_key|].
      destruct (Hall "structural_feedback") as [s Hs]; [required_key|].
      destruct (Hall "novelty_indicators") as [n Hn]; [required_key|].
      destruct (Hall "likability_scores") as [k Hk]; [required_key|].
      unfold compute_senses.
      rewrite (senses_scores_present d t c s n successes k) by done.
      assert (Hf : forallb is_bool successes = false).
      { apply not_true_is_false. intros Hb. rewrite forallb_forall in Hb.
        apply list_elem_of_In, Hb in Hx. congruence. }
      by rewrite Hf.
    + intros d' key [= <-] Hkey Hnone.
      apply (proj1 (missing_keys_nil d) Hnil) in Hkey as [? Hsome]. congruence.
Qed.

Lemma compute_senses_invalid_witness :
  exists m,
    compute_senses (PyDict (delete "novelty_indicators" sample_data)) default_threshold
    = Raise (RuntimeError ("Error processing ratings_data: " +:+ m) (ValueError m))
    /\ (forall d key,
          PyDict (delete "novelty_indicators" sample_data) = PyDict d ->
          key ∈ required_keys -> d !! key = None ->
          m = "Missing required keys: " +:+ join ", " (missing_keys d)
          /\ names m key).
Proof.
  apply (compute_senses_invalid
           (PyDict (delete "novelty_indicators" sample_data)) default_threshold).
  apply (keys_missing _ "novelty_indicators").
  - required_key.
  - apply lookup_delete_eq.
Defined.

End Scenarios.

(** * Further properties of the code *)

(** ** What the filter keeps and drops *)

Section FilterShape.

Implicit Types (l : list R) (v t c : R).

Lemma filter_weaken (P Q : R -> Prop)
    `{!forall v, Decision (P v)} `{!forall v, Decision (Q v)} l :
  (forall v, P v -> Q v) -> filter P l `sublist_of` filter Q l.
Proof.
  intros HPQ. induction l as [|x l' IH]; [constructor|].
  rewrite !filter_cons. destruct (decide (P x)) as [HP | HP].
  - rewrite decide_True by auto. by constructor.
  - destruct (decide (Q x)); [by constructor | done].
Qed.


Lemma filter_fmap (P : R -> Prop) `{!forall v, Decision (P v)} (f : R -> R) l :
  filter P (f <$> l) = f <$> filter (fun v => P (f v)) l.
Proof.
  induction l as [|x l' IH]; [done|].
  rewrite fmap_cons, !filter_cons. case_decide; by rewrite ?fmap_cons, IH.
Qed.

(** X1: [remove_outliers] only ever drops samples: for every input and every
    threshold its result is a subsequence of the input, so it adds nothing,
    reorders nothing, and is no longer than the input. *)
Theorem remove_outliers_sublist l t :
  remove_outliers l t `sublist_of` l
  /\ (length (remove_outliers l t) <= length l)%nat.
Proof.
  assert (Hsub : remove_outliers l t `sublist_of` l).
  { unfold remove_outliers. repeat case_decide; try done.
    apply sublist_filter. }
  split; [exact Hsub | by apply sublist_length].
Qed.

(** X2: a larger threshold keeps at least what a smaller one keeps. *)
Theorem remove_outliers_monotone l t1 t2 :
  t1 <= t2 -> remove_outliers l t1 `sublist_of` remove_outliers l t2.
Proof.
  intros Ht. unfold remove_outliers. repeat case_decide; try done.
  apply filter_weaken. intros v Hv. lra.
Qed.

Lemma remove_outliers_monotone_witness :
  remove_outliers [0; 1] 1 `sublist_of` remove_outliers [0; 1] 3.
Proof. apply (remove_outliers_monotone [0; 1] 1 3). lra. Defined.







End FilterShape.

(** ** Symmetries of the filter and of the scores *)

Section Symmetry.

Implicit Types (l : list R) (xs ys : list pyval) (v t c s : R).

Lemma sum_affine l s c :
  Np.sum ((fun x => s * x + c) <$> l) = s * Np.sum l + INR (length l) * c.
Proof.
  induction l as [|x l' IH]; [cbn; lra|].
  change (length (x :: l')) with (S (length l')).
  rewrite fmap_cons, !sum_cons, S_INR, IH. lra.
Qed.

Lemma mean_affine l s c :
  l <> [] -> Np.mean ((fun x => s * x + c) <$> l) = s * Np.mean l + c.
Proof.
  intros Hne. pose proof (length_pos_INR l Hne).
  unfold Np.mean. rewrite length_fmap, sum_affine. field. lra.
Qed.

Lemma std_affine l s c :
  s * s = 1 -> Np.std ((fun x => s * x + c) <$> l) = Np.std l.
Proof.
  intros Hs. destruct (decide (l = [])) as [-> | Hne]; [done|].
  unfold Np.std. rewrite mean_affine by done. f_equal.
  generalize (Np.mean l). intros m.
  unfold Np.mean. rewrite !length_fmap. f_equal. f_equal.
  rewrite <- list_fmap_compose. apply list_fmap_ext. intros _ x _. simpl.
  replace ((s * x + c - (s * m + c)) * (s * x + c - (s * m + c)))
    with (s * s * ((x - m) * (x - m))) by ring.
  rewrite Hs. ring.
Qed.

Lemma z_score_affine mean std v s c :
  s * s = 1 ->
  z_score (s * mean + c) std (s * v + c) = z_score mean std v.
Proof.
  intros Hs. unfold z_score.
  replace ((s * v + c - (s * mean + c)) / (std + 1e-9))
    with (s * ((v - mean) / (std + 1e-9))) by (unfold Rdiv; lra).
  rewrite Rabs_mult.
  assert (Rabs s = 1); [|nra].
  unfold Rabs. destruct (Rcase_abs s); nra.
Qed.

Lemma remove_outliers_affine l t s c :
  s * s = 1 ->
  remove_outliers ((fun x => s * x + c) <$> l) t
  = (fun x => s * x + c) <$> remove_outliers l t.
Proof.
  intros Hs. unfold remove_outliers. rewrite length_fmap, std_affine by done.
  repeat case_decide; try done.
  rewrite mean_affine by (intros ->; simpl in *; lia).
  rewrite filter_fmap. f_equal. apply list_filter_iff. intros v.
  by rewrite z_score_affine.
Qed.

Lemma remove_outliers_opp l t :
  remove_outliers (Ropp <$> l) t = Ropp <$> remove_outliers l t.
Proof.
  assert (Hf : forall l', Ropp <$> l' = (fun x => (-1) * x + 0) <$> l').
  { intros l'. apply list_fmap_ext. intros; simpl; lra. }
  rewrite !Hf. apply remove_outliers_affine. lra.
Qed.


(** X7: smell depends on the magnitudes only: negating every novelty
    indicator leaves it unchanged. *)
Theorem smell_score_sign xs ys t :
  Np.array ys = Ropp <$> Np.array xs ->
  smell_score ys t = smell_score xs t.
Proof.
  intros Hneg. unfold smell_score. rewrite Hneg, remove_outliers_opp.
  assert (Habs : Np.abs (Ropp <$> remove_outliers (Np.array xs) t)
               = Np.abs (remove_outliers (Np.array xs) t)).
  { unfold Np.abs. rewrite <- list_fmap_compose. apply list_fmap_ext.
    intros _ x _. simpl. apply Rabs_Ropp. }
  by rewrite Habs.
Qed.

Lemma smell_score_sign_witness :
  smell_score [PyFloat (-1.2); PyFloat (-0.5); PyFloat (- -0.3)] 3
  = smell_score [PyFloat 1.2; PyFloat 0.5; PyFloat (-0.3)] 3.
Proof.
  apply (smell_score_sign [PyFloat 1.2; PyFloat 0.5; PyFloat (-0.3)]).
  unfold Np.array. cbn [fmap list_fmap to_float]. repeat f_equal; lra.
Defined.
















End Symmetry.

(** ** Signals without variance *)

Section ConstantSignal.

Implicit Types (l : list R) (xs : list pyval) (v t c : R).










End ConstantSignal.

(** ** Success, failure and what the result depends on *)

Section Outcome.

Implicit Types (d : gmap string (list pyval)) (o : pyobj) (t : R).

(** What a successful run of the body has read and computed. *)
Lemma senses_scores_ok_inv d t sc :
  senses_scores (PyDict d) t = Ok sc ->
  exists c s n a k,
    d !! "coherence_ratings" = Some c /\
    d !! "structural_feedback" = Some s /\
    d !! "novelty_indicators" = Some n /\
    d !! "application_successes" = Some a /\
    d !! "likability_scores" = Some k /\
    forallb is_bool a = true /\
    sc = mkSenses (hear_score c t) (see_score s t) (smell_score n t)
                  (touch_score a) (taste_score k t).
Proof.
  intros Hok.
  destruct (decide (missing_keys d = [])) as [Hnil | Hm];
    [|by rewrite senses_scores_missing in Hok].
  pose proof (proj1 (missing_keys_nil d) Hnil) as Hall.
  destruct (Hall "coherence_ratings") as [c Hc]; [required_key|].
  destruct (Hall "structural_feedback") as [s Hs]; [required_key|].
  destruct (Hall "novelty_indicators") as [n Hn]; [required_key|].
  destruct (Hall "application_successes") as [a Ha]; [required_key|].
  destruct (Hall "likability_scores") as [k Hk]; [required_key|].
  rewrite (senses_scores_present d t c s n a k) in Hok by done.
  exists c, s, n, a, k. destruct (forallb is_bool a); [|done].
  injection Hok as <-. done.
Qed.





(** The body reads the five required keys and nothing else. *)
Lemma senses_scores_agree d d' t :
  (forall key, key ∈ required_keys -> d !! key = d' !! key) ->
  senses_scores (PyDict d) t = senses_scores (PyDict d') t.
Proof.
  intros Hagree.
  assert (Hc := Hagree "coherence_ratings" ltac:(required_key)).
  assert (Hs := Hagree "structural_feedback" ltac:(required_key)).
  assert (Hn := Hagree "novelty_indicators" ltac:(required_key)).
  assert (Ha := Hagree "application_successes" ltac:(required_key)).
  assert (Hk := Hagree "likability_scores" ltac:(required_key)).
  assert (Hm : missing_keys d = missing_keys d').
  { unfold missing_keys, required_keys. rewrite !filter_cons, !filter_nil.
    by rewrite Hc, Hs, Hn, Ha, Hk. }
  unfold senses_scores. fold (missing_keys d) (missing_keys d').
  rewrite Hm. unfold getitem. by rewrite Hc, Hs, Hn, Ha, Hk.
Qed.

(** X13: the result depends on the five required keys only: two dictionaries
    that agree on them give the same result, so [custom_metric] and any
    other extra key are ignored. *)
Theorem compute_senses_required_keys_only d d' t :
  (forall key, key ∈ required_keys -> d !! key = d' !! key) ->
  compute_senses (PyDict d) t = compute_senses (PyDict d') t.
Proof.
  intros Hagree. unfold compute_senses.
  by rewrite (senses_scores_agree d d' t Hagree).
Qed.

Lemma compute_senses_required_keys_only_witness :
  compute_senses (PyDict sample_data) 3
  = compute_senses (PyDict (<["custom_metric" := [PyFloat 42]]> sample_data)) 3.
Proof.
  apply (compute_senses_required_keys_only
           sample_data (<["custom_metric" := [PyFloat 42]]> sample_data) 3).
  intros key Hkey. unfold required_keys in Hkey.
  repeat (apply elem_of_cons in Hkey as [-> | Hkey];
          [by rewrite lookup_insert_ne|]).
  by apply not_elem_of_nil in Hkey.
Defined.

(** X14: the signals are independent: replacing the sequence under one key
    changes no score other than the one computed from that key. *)
Theorem signals_independent d t key a sc sc' :
  senses_scores (PyDict d) t = Ok sc ->
  senses_scores (PyDict (<[key := a]> d)) t = Ok sc' ->
  (key <> "coherence_ratings" -> hear sc' = hear sc)
  /\ (key <> "structural_feedback" -> see sc' = see sc)
  /\ (key <> "novelty_indicators" -> smell sc' = smell sc)
  /\ (key <> "application_successes" -> touch sc' = touch sc)
  /\ (key <> "likability_scores" -> taste sc' = taste sc).
Proof.
  intros (c & s & n & b & k & Hc & Hs & Hn & Hb & Hk & _ & ->)%senses_scores_ok_inv
         (c' & s' & n' & b' & k' & Hc' & Hs' & Hn' & Hb' & Hk' & _ & ->)%senses_scores_ok_inv.
  cbn [hear see smell touch taste].
  repeat split; intros Hne;
    [ rewrite lookup_insert_ne, Hc in Hc' by done
    | rewrite lookup_insert_ne, Hs in Hs' by done
    | rewrite lookup_insert_ne, Hn in Hn' by done
    | rewrite lookup_insert_ne, Hb in Hb' by done
    | rewrite lookup_insert_ne, Hk in Hk' by done ];
    congruence.
Qed.

Lemma signals_independent_witness :
  exists sc sc',
    senses_scores (PyDict sample_data) 3 = Ok sc
    /\ senses_scores
         (PyDict (<["novelty_indicators" := [PyFloat 1000000]]> sample_data)) 3
       = Ok sc'
    /\ hear sc' = hear sc /\ see sc' = see sc
    /\ touch sc' = touch sc /\ taste sc' = taste sc.
Proof.
  destruct (bundle_lookup
    [PyFloat 0.8; PyFloat 0.9; PyFloat 0.7]
    [PyFloat 0.85; PyFloat 0.75; PyFloat 0.9]
    [PyFloat 1.2; PyFloat 0.5; PyFloat (-0.3)]
    [PyBool true; PyBool true; PyBool false]
    [PyFloat 4.5; PyFloat 5.0; PyFloat 3.8]) as (Hc & Hs & Hn & Ha & Hk).
  fold sample_data in Hc, Hs, Hn, Ha, Hk.
  eexists _, _.
  assert (H1 := senses_scores_present sample_data 3 _ _ _ _ _ Hc Hs Hn Ha Hk).
  set (d' := <["novelty_indicators" := [PyFloat 1000000]]> sample_data).
  assert (Hc' : d' !! "coherence_ratings" = Some [PyFloat 0.8; PyFloat 0.9; PyFloat 0.7])
    by (unfold d'; rewrite lookup_insert_ne by done; exact Hc).
  assert (Hs' : d' !! "structural_feedback" = Some [PyFloat 0.85; PyFloat 0.75; PyFloat 0.9])
    by (unfold d'; rewrite lookup_insert_ne by done; exact Hs).
  assert (Hn' : d' !! "novelty_indicators" = Some [PyFloat 1000000])
    by apply lookup_insert_eq.
  assert (Ha' : d' !! "application_successes" = Some [PyBool true; PyBool true; PyBool false])
    by (unfold d'; rewrite lookup_insert_ne by done; exact Ha).
  assert (Hk' : d' !! "likability_scores" = Some [PyFloat 4.5; PyFloat 5.0; PyFloat 3.8])
    by (unfold d'; rewrite lookup_insert_ne by done; exact Hk).
  assert (H2 := senses_scores_present d' 3 _ _ _ _ _ Hc' Hs' Hn' Ha' Hk').
  cbn [forallb is_bool andb] in H1, H2.
  split; [exact H1|]. split; [exact H2|].
  destruct (signals_independent sample_data 3 "novelty_indicators"
              [PyFloat 1000000] _ _ H1 H2) as (Hh & Hse & _ & Hto & Hta).
  split; [by apply Hh|]. split; [by apply Hse|].
  split; [by apply Hto | by apply Hta].
Defined.

End Outcome.

(** ** The summary against the scores *)

Section Summary.

Implicit Types (y : R) (o : pyobj) (t : R).







(** X16: the success rate is 1 exactly when every application succeeded and 0
    exactly when none did. *)
Theorem touch_score_extremes (successes : list pyval) :
  successes <> [] -> forallb is_bool successes = true ->
  (touch_score successes = 1 <-> forall x, x ∈ successes -> x = PyBool true)
  /\ (touch_score successes = 0 <-> forall x, x ∈ successes -> x = PyBool false).
Proof.
  intros Hne Hb.
  assert (Hsum : forall xs : list pyval, forallb is_bool xs = true ->
    0 <= Np.sum (to_float <$> xs) <= INR (length xs)
    /\ (Np.sum (to_float <$> xs) = INR (length xs)
        <-> forall x, x ∈ xs -> x = PyBool true)
    /\ (Np.sum (to_float <$> xs) = 0
        <-> forall x, x ∈ xs -> x = PyBool false)).
  { clear. induction xs as [|x xs IH]; intros Hb.
    - cbn. repeat split; try lra; intros _ x Hx; by apply not_elem_of_nil in Hx.
    - cbn [forallb] in Hb. apply andb_prop in Hb as [Hx Hxs].
      destruct (IH Hxs) as ([Hlo Hhi] & Hone & Hzero).
      change (length (x :: xs)) with (S (length xs)).
      rewrite fmap_cons, sum_cons, S_INR.
      destruct x as [| |[|]]; try done; cbn [to_float].
      + repeat split; try lra.
        * intros Heq y Hy. apply elem_of_cons in Hy as [-> | Hy]; [done|].
          apply Hone; [lra | done].
        * intros Hall. assert (Np.sum (to_float <$> xs) = INR (length xs)); [|lra].
          apply Hone. intros y Hy. apply Hall. by right.
        * intros Hall. by specialize (Hall (PyBool true) ltac:(left)).
      + repeat split; try lra.
        * intros Hall. by specialize (Hall (PyBool false) ltac:(left)).
        * intros Heq y Hy. apply elem_of_cons in Hy as [-> | Hy]; [done|].
          apply Hzero; [lra | done].
        * intros Hall. assert (Np.sum (to_float <$> xs) = 0); [|lra].
          apply Hzero. intros y Hy. apply Hall. by right. }
  destruct (Hsum successes Hb) as (_ & Hone & Hzero).
  unfold touch_score. destruct successes as [|x xs]; [done|].
  assert (Hn : 0 < INR (length (x :: xs))).
  { change (length (x :: xs)) with (S (length xs)). rewrite S_INR.
    pose proof (pos_INR (length xs)). lra. }
  set (n := INR (length (x :: xs))) in *.
  set (k := Np.sum (to_float <$> x :: xs)) in *.
  split.
  - rewrite <- Hone. split; intros Heq.
    + apply (f_equal (fun r => r * n)) in Heq.
      unfold Rdiv in Heq. rewrite Rmult_assoc, Rinv_l in Heq; lra.
    + rewrite Heq. field. lra.
  - rewrite <- Hzero. split; intros Heq.
    + apply (f_equal (fun r => r * n)) in Heq.
      unfold Rdiv in Heq. rewrite Rmult_assoc, Rinv_l in Heq; lra.
    + rewrite Heq. field. lra.
Qed.

Lemma touch_score_extremes_witness :
  (touch_score [PyBool true; PyBool true] = 1
   <-> forall x, x ∈ [PyBool true; PyBool true] -> x = PyBool true)
  /\ (touch_score [PyBool true; PyBool true] = 0
      <-> forall x, x ∈ [PyBool true; PyBool true] -> x = PyBool false).
Proof. by apply (touch_score_extremes [PyBool true; PyBool true]). Defined.

End Summary.
